(** * Actor isolation: a shallow embedding of [swift/AST/ActorIsolation.h]

    The header defines [swift::ActorIsolation], a small copyable value that
    pairs a five-way kind with a pointer-sized payload slot and three
    bit-fields, and [swift::ApplyIsolationCrossing], a pair of such values
    recorded at a call site.  Every inline member function of the header is
    embedded below as a Rocq function of the same name; member functions the
    header only declares are modelled from the specification and marked so. *)

From Stdlib Require Import ZArith NArith Bool String List Lia.
Import ListNotations.

Local Open Scope Z_scope.
Local Open Scope string_scope.

(** ** Machine-level data *)

(** An [unsigned] is a 32-bit integer, a bit-field [unsigned f : w] keeps the
    low [w] bits of what is stored into it. *)
Definition wrap (w x : Z) : Z := x mod 2 ^ w.

Definition unsigned_add (a b : Z) : Z := wrap 32 (a + b).

Definition is_unsigned (x : Z) : Prop := 0 <= x < 2 ^ 32.

(** Addresses.  [nullptr] is address zero. *)
Definition void_ptr : Set := N.

Definition nullptr : void_ptr := 0%N.

(** [swift::Type] wraps a single [TypeBase *]; the default-constructed
    [Type()] wraps the null pointer. *)
Record Type_ : Set := mkType { getPointer : void_ptr }.

Definition Type_null : Type_ := mkType nullptr.

Definition Type_eqb (a b : Type_) : bool := N.eqb (getPointer a) (getPointer b).

(** [llvm::PointerUnion<NominalTypeDecl *, VarDecl *, Expr *>]: one pointer
    together with the alternative it belongs to. *)
Inductive PointerUnion : Set :=
| PU_NominalTypeDecl (actor : void_ptr)
| PU_VarDecl (actor : void_ptr)
| PU_Expr (actor : void_ptr).

(** [std::optional] is [option]; an [assert] that fails is [None] as well, so
    a precondition-checked accessor returns [option]. *)
Definition assert {A : Type} (cond : bool) (k : option A) : option A :=
  if cond then k else None.

(** ** [llvm::StringSwitch] *)

Module StringSwitch.

Record t (T : Type) : Type := mk { Str : string; Result : option T }.
Arguments mk {T} _ _.
Arguments Str {T} _.
Arguments Result {T} _.

Definition make {T : Type} (S : string) : t T := mk S None.

(** [Case] keeps the first match: it fires only while no result is stored. *)
Definition Case {T : Type} (S : string) (Value : T) (sw : t T) : t T :=
  match Result sw with
  | None => if String.eqb (Str sw) S then mk (Str sw) (Some Value) else sw
  | Some _ => sw
  end.

Definition Default {T : Type} (Value : T) (sw : t T) : T :=
  match Result sw with
  | Some r => r
  | None => Value
  end.

End StringSwitch.

(** ** The isolation kind *)

Inductive Kind : Set :=
| Unspecified
| ActorInstance
| Nonisolated
| NonisolatedUnsafe
| GlobalActor.

(** The enumerators' values, [Unspecified = 0] onwards. *)
Definition Kind_value (k : Kind) : Z :=
  match k with
  | Unspecified => 0
  | ActorInstance => 1
  | Nonisolated => 2
  | NonisolatedUnsafe => 3
  | GlobalActor => 4
  end.

Definition Kind_eqb (a b : Kind) : bool := Z.eqb (Kind_value a) (Kind_value b).

(** ** The isolation value *)

(** The anonymous union: the member that the constructor initialised. *)
Inductive Storage : Set :=
| actorInstance (a : PointerUnion)
| globalActor (t : Type_)
| pointer (p : void_ptr).

Record ActorIsolation : Set := mkActorIsolation {
  storage : Storage;
  kind : Kind;                       (* unsigned kind : 3 *)
  isolatedByPreconcurrency : bool;   (* unsigned isolatedByPreconcurrency : 1 *)
  silParsed : bool;                  (* unsigned silParsed : 1 *)
  parameterIndex : Z                 (* unsigned parameterIndex : 27 *)
}.

(** *** Constructors *)

(** [ActorIsolation(Kind kind, Type globalActor)]. *)
Definition ActorIsolation_Type (kind : Kind) (globalActor_ : Type_)
  : ActorIsolation :=
  {| storage := globalActor globalActor_;
     kind := kind;
     isolatedByPreconcurrency := false;
     silParsed := false;
     parameterIndex := wrap 27 0 |}.

(** [explicit ActorIsolation(Kind kind = Unspecified, bool isSILParsed = false)]. *)
Definition ActorIsolation_Kind (kind : Kind) (isSILParsed_ : bool)
  : ActorIsolation :=
  {| storage := pointer nullptr;
     kind := kind;
     isolatedByPreconcurrency := false;
     silParsed := isSILParsed_;
     parameterIndex := wrap 27 0 |}.

(** Modelled from the spec: the three private constructors
    [ActorIsolation(Kind, NominalTypeDecl *, unsigned)],
    [ActorIsolation(Kind, VarDecl *, unsigned)] and
    [ActorIsolation(Kind, Expr *, unsigned)] are declared in the header and
    defined out of line.  The spec has a factory store the actor reference and
    the index it passes ("stored internally as index+1", "stores 0"), and has
    the two flags set only by decoding and by [withPreconcurrency]; the store
    into the 27-bit field is the header's declaration of [parameterIndex]. *)
Definition ActorIsolation_actor (kind : Kind) (actor : PointerUnion)
    (parameterIndex_ : Z) : ActorIsolation :=
  {| storage := actorInstance actor;
     kind := kind;
     isolatedByPreconcurrency := false;
     silParsed := false;
     parameterIndex := wrap 27 parameterIndex_ |}.

(** *** Factories *)

(** [ActorIsolation(Unspecified, nullptr)]: with two arguments the candidates
    are the [Type] and the [bool] constructor, and [nullptr] converts
    implicitly to [Type] only, through its constructor from a [TypeBase]
    pointer.  Lemma [nullptr_overloads_agree] below shows that the other
    choice leaves every bit of the value the same. *)
Definition forUnspecified : ActorIsolation :=
  ActorIsolation_Type Unspecified (mkType nullptr).

Definition forNonisolated (unsafe : bool) : ActorIsolation :=
  ActorIsolation_Type (if unsafe then NonisolatedUnsafe else Nonisolated)
                      (mkType nullptr).

Definition forActorInstanceParameter_NominalTypeDecl (actor : void_ptr)
    (parameterIndex_ : Z) : ActorIsolation :=
  ActorIsolation_actor ActorInstance (PU_NominalTypeDecl actor)
                       (unsigned_add parameterIndex_ 1).

Definition forActorInstanceParameter_VarDecl (actor : void_ptr)
    (parameterIndex_ : Z) : ActorIsolation :=
  ActorIsolation_actor ActorInstance (PU_VarDecl actor)
                       (unsigned_add parameterIndex_ 1).

(** Modelled from the spec: the [Expr] overload of [forActorInstanceParameter]
    is declared in the header and defined out of line; the spec has every
    factory that takes a declared parameter store [index + 1]. *)
Definition forActorInstanceParameter_Expr (actor : void_ptr)
    (parameterIndex_ : Z) : ActorIsolation :=
  ActorIsolation_actor ActorInstance (PU_Expr actor)
                       (unsigned_add parameterIndex_ 1).

Definition forActorInstanceCapture (capturedActor : void_ptr)
  : ActorIsolation :=
  ActorIsolation_actor ActorInstance (PU_VarDecl capturedActor) 0.

(** Modelled from the spec: [forActorInstanceSelf], which takes a [ValueDecl]
    pointer, is declared in the header and defined out of line.  The spec has
    construction from "self" store index [0]; which declaration stands for
    the receiver is the caller's business here, so the resolved reference is
    the argument. *)
Definition forActorInstanceSelf (self : PointerUnion) : ActorIsolation :=
  ActorIsolation_actor ActorInstance self 0.

Definition forGlobalActor (globalActor_ : Type_) : ActorIsolation :=
  ActorIsolation_Type GlobalActor globalActor_.

(** *** Queries *)

Definition getKind (v : ActorIsolation) : Kind := kind v.

(** [operator Kind() const]. *)
Definition operator_Kind (v : ActorIsolation) : Kind := getKind v.

Definition isUnspecified (v : ActorIsolation) : bool :=
  Kind_eqb (kind v) Unspecified.

Definition isNonisolated (v : ActorIsolation) : bool :=
  Kind_eqb (kind v) Nonisolated || Kind_eqb (kind v) NonisolatedUnsafe.

Definition getActorInstanceParameter (v : ActorIsolation) : option Z :=
  assert (Kind_eqb (getKind v) ActorInstance) (Some (parameterIndex v)).

Definition isSILParsed (v : ActorIsolation) : bool := silParsed v.

Definition isActorIsolated (v : ActorIsolation) : bool :=
  match getKind v with
  | ActorInstance
  | GlobalActor => true
  | Unspecified
  | Nonisolated
  | NonisolatedUnsafe => false
  end.

Definition isGlobalActor (v : ActorIsolation) : bool :=
  Kind_eqb (getKind v) GlobalActor.

Definition preconcurrency (v : ActorIsolation) : bool :=
  isolatedByPreconcurrency v.

Definition withPreconcurrency (v : ActorIsolation) (value : bool)
  : ActorIsolation :=
  let copy := v in
  {| storage := storage copy;
     kind := kind copy;
     isolatedByPreconcurrency := value;
     silParsed := silParsed copy;
     parameterIndex := parameterIndex copy |}.

(** *** Textual decoding *)

(** Each [Case] value is written as a [std::optional<ActorIsolation>] built
    from the enumerator and converts to the switch's
    [std::optional<ActorIsolation::Kind>] through [operator Kind]. *)
Definition optional_Kind (o : option ActorIsolation) : option Kind :=
  option_map operator_Kind o.

Definition forSILString (string_ : string) : option ActorIsolation :=
  let sw0 := StringSwitch.make (T := option Kind) string_ in
  let sw1 := StringSwitch.Case "unspecified"
               (optional_Kind (Some (ActorIsolation_Kind Unspecified false))) sw0 in
  let sw2 := StringSwitch.Case "actor_instance"
               (optional_Kind (Some (ActorIsolation_Kind ActorInstance false))) sw1 in
  let sw3 := StringSwitch.Case "nonisolated"
               (optional_Kind (Some (ActorIsolation_Kind Nonisolated false))) sw2 in
  let sw4 := StringSwitch.Case "nonisolated_unsafe"
               (optional_Kind (Some (ActorIsolation_Kind NonisolatedUnsafe false))) sw3 in
  let sw5 := StringSwitch.Case "global_actor"
               (optional_Kind (Some (ActorIsolation_Kind GlobalActor false))) sw4 in
  let sw6 := StringSwitch.Case "global_actor_unsafe"
               (optional_Kind (Some (ActorIsolation_Kind GlobalActor false))) sw5 in
  let kind_ := StringSwitch.Default None sw6 in
  match kind_ with
  | None => None
  | Some k => Some (ActorIsolation_Kind k true)
  end.

(** *** Printing *)

(** [llvm::raw_ostream] as the text written so far; [os << s] appends. *)
Definition raw_ostream : Set := string.

Definition print (v : ActorIsolation) (os : raw_ostream) : raw_ostream :=
  match getKind v with
  | Unspecified => os ++ "unspecified"
  | ActorInstance => os ++ "actor_instance"
  | Nonisolated => os ++ "nonisolated"
  | NonisolatedUnsafe => os ++ "nonisolated_unsafe"
  | GlobalActor => os ++ "global_actor"
  end.

(** ** The crossing model *)

Record ApplyIsolationCrossing : Set := mkApplyIsolationCrossing {
  CallerIsolation : ActorIsolation;
  CalleeIsolation : ActorIsolation
}.

Definition ApplyIsolationCrossing_default : ApplyIsolationCrossing :=
  mkApplyIsolationCrossing forUnspecified forUnspecified.

Definition exitsIsolation (c : ApplyIsolationCrossing) : bool :=
  negb (isActorIsolated (CalleeIsolation c)).

Definition getDiagnoseIsolation (c : ApplyIsolationCrossing) : ActorIsolation :=
  if exitsIsolation c then CallerIsolation c else CalleeIsolation c.

Definition getCallerIsolation (c : ApplyIsolationCrossing) : ActorIsolation :=
  CallerIsolation c.

Definition getCalleeIsolation (c : ApplyIsolationCrossing) : ActorIsolation :=
  CalleeIsolation c.

(** ** Operations that need the collaborators

    The header leans on code it does not contain: the bit pattern LLVM gives
    a [PointerUnion], [llvm::hash_combine], canonical types and the generic
    substitution engine.  They are the variables of this section. *)

Definition hash_code : Set := Z.

Section Collaborators.

(** [PointerUnion::getOpaqueValue]: the word a pointer union occupies. *)
Variable getOpaqueValue : PointerUnion -> void_ptr.

(** [llvm::hash_combine] at the four argument types [hash_value] passes. *)
Variable hash_combine : Z -> void_ptr -> Z -> Z -> hash_code.

(** [Type::getCanonicalType]. *)
Variable getCanonicalType : Type_ -> Type_.

(** [SubstitutionMap] and [Type::subst]. *)
Variable SubstitutionMap : Type.
Variable Type_subst : Type_ -> SubstitutionMap -> Type_.

(** The three members of the union share one word.  Reading [pointer] or
    [globalActor] yields that word whichever member was initialised. *)
Definition read_pointer (s : Storage) : void_ptr :=
  match s with
  | actorInstance a => getOpaqueValue a
  | globalActor t => getPointer t
  | pointer p => p
  end.

Definition read_globalActor (s : Storage) : Type_ :=
  mkType (read_pointer s).

Definition getGlobalActor (v : ActorIsolation) : option Type_ :=
  assert (isGlobalActor v)
    (if silParsed v then Some Type_null
     else Some (read_globalActor (storage v))).

Definition hash_value (state : ActorIsolation) : hash_code :=
  hash_combine (Kind_value (kind state))
               (read_pointer (storage state))
               (Z.b2z (isolatedByPreconcurrency state))
               (parameterIndex state).

(** Modelled from the spec: [areTypesEqual] is declared in the header
    ("determine whether the given types are (canonically) equal") and
    defined elsewhere; the spec calls it canonical type equality. *)
Definition areTypesEqual (type1 type2 : Type_) : bool :=
  Type_eqb (getCanonicalType type1) (getCanonicalType type2).

(** Modelled from the spec: [ActorIsolation::isEqual] is declared in the
    header and defined out of line.  The spec (section 4.3): two values are
    equal iff they have the same kind and, for the payload-bearing kinds,
    the same referenced actor or capture (reference identity) or the same
    type (canonical type equality); neither flag takes part. *)
Definition isEqual (lhs rhs : ActorIsolation) : bool :=
  Kind_eqb (getKind lhs) (getKind rhs) &&
  match getKind lhs with
  | ActorInstance =>
      N.eqb (read_pointer (storage lhs)) (read_pointer (storage rhs))
  | GlobalActor =>
      areTypesEqual (read_globalActor (storage lhs))
                    (read_globalActor (storage rhs))
  | Unspecified
  | Nonisolated
  | NonisolatedUnsafe => true
  end.

(** [operator==] and [operator!=]. *)
Definition operator_eq (lhs rhs : ActorIsolation) : bool := isEqual lhs rhs.

Definition operator_ne (lhs rhs : ActorIsolation) : bool :=
  negb (operator_eq lhs rhs).

(** Modelled from the spec: [ActorIsolation::subst] is declared in the
    header and defined out of line.  The spec (section 4.2): for
    [GlobalActor] it rewrites the payload type under the substitution and
    returns a new [GlobalActor] isolation; for a kind without a
    type-bearing payload it returns the value unchanged.  The spec
    describes no rewriting for [ActorInstance], which is left unchanged. *)
Definition subst (v : ActorIsolation) (subs : SubstitutionMap)
  : ActorIsolation :=
  match getKind v with
  | GlobalActor =>
      match getGlobalActor v with
      | Some t => forGlobalActor (Type_subst t subs)
      | None => v
      end
  | Unspecified
  | ActorInstance
  | Nonisolated
  | NonisolatedUnsafe => v
  end.

End Collaborators.

Arguments subst _ {_} _ _ _.

(** ** Values the class hands out *)

(** The ways the header gives to obtain an [ActorIsolation]: the public
    constructor, the static factories, and the derived copy
    [withPreconcurrency]. *)
Inductive Produced : ActorIsolation -> Prop :=
| P_constructor kind_ isSILParsed_ :
    Produced (ActorIsolation_Kind kind_ isSILParsed_)
| P_forUnspecified : Produced forUnspecified
| P_forNonisolated unsafe : Produced (forNonisolated unsafe)
| P_forActorInstanceParameter_NominalTypeDecl actor i :
    Produced (forActorInstanceParameter_NominalTypeDecl actor i)
| P_forActorInstanceParameter_VarDecl actor i :
    Produced (forActorInstanceParameter_VarDecl actor i)
| P_forActorInstanceParameter_Expr actor i :
    Produced (forActorInstanceParameter_Expr actor i)
| P_forActorInstanceCapture capturedActor :
    Produced (forActorInstanceCapture capturedActor)
| P_forGlobalActor globalActor_ : Produced (forGlobalActor globalActor_)
| P_forSILString string_ v :
    forSILString string_ = Some v -> Produced v
| P_withPreconcurrency v value :
    Produced v -> Produced (withPreconcurrency v value).

(** The five keywords [print] writes and the six [forSILString] reads. *)
Definition printed_keywords : list string :=
  ["unspecified"; "actor_instance"; "nonisolated"; "nonisolated_unsafe";
   "global_actor"].


(** ** How a value was obtained *)





(** ** Streaming *)

(** [llvm::operator<<(raw_ostream &, const ActorIsolation &)]: prints the
    value and returns the stream. *)
Definition operator_shl (os : raw_ostream) (other : ActorIsolation)
  : raw_ostream :=
  print other os.

(** * Properties *)

(** ** Bit-fields and kinds *)

Lemma wrap_range (w x : Z) : 0 <= w -> 0 <= wrap w x < 2 ^ w.
Proof.
  intros Hw. unfold wrap. apply Z.mod_pos_bound.
  apply Z.pow_pos_nonneg; lia.
Qed.

Lemma Kind_value_inj (a b : Kind) : Kind_value a = Kind_value b -> a = b.
Proof. destruct a, b; simpl; intros H; try reflexivity; discriminate H. Qed.

Lemma Kind_eqb_eq (a b : Kind) : Kind_eqb a b = true <-> a = b.
Proof.
  unfold Kind_eqb. rewrite Z.eqb_eq. split.
  - apply Kind_value_inj.
  - intros ->. reflexivity.
Qed.

Lemma Kind_eqb_refl (a : Kind) : Kind_eqb a a = true.
Proof. apply Kind_eqb_eq. reflexivity. Qed.

(** The two constructors [forUnspecified]'s call could mean build values
    that agree on every field and on the word in the union. *)
Lemma nullptr_overloads_agree (getOpaqueValue : PointerUnion -> void_ptr)
    (k : Kind) :
  let a := ActorIsolation_Type k (mkType nullptr) in
  let b := ActorIsolation_Kind k false in
  read_pointer getOpaqueValue (storage a) = read_pointer getOpaqueValue (storage b)
  /\ kind a = kind b
  /\ isolatedByPreconcurrency a = isolatedByPreconcurrency b
  /\ silParsed a = silParsed b
  /\ parameterIndex a = parameterIndex b.
Proof. cbv zeta. repeat split. Qed.

(** ** Textual decoding *)

(** [forSILString] as the chain of string comparisons it performs. *)
Lemma forSILString_unfold (s : string) :
  forSILString s =
  if String.eqb s "unspecified" then Some (ActorIsolation_Kind Unspecified true)
  else if String.eqb s "actor_instance" then Some (ActorIsolation_Kind ActorInstance true)
  else if String.eqb s "nonisolated" then Some (ActorIsolation_Kind Nonisolated true)
  else if String.eqb s "nonisolated_unsafe" then Some (ActorIsolation_Kind NonisolatedUnsafe true)
  else if String.eqb s "global_actor" then Some (ActorIsolation_Kind GlobalActor true)
  else if String.eqb s "global_actor_unsafe" then Some (ActorIsolation_Kind GlobalActor true)
  else None.
Proof.
  unfold forSILString, StringSwitch.Case, StringSwitch.Default, StringSwitch.make.
  cbn [StringSwitch.Result StringSwitch.Str].
  destruct (String.eqb s "unspecified"); cbn [StringSwitch.Result StringSwitch.Str];
    [reflexivity|].
  destruct (String.eqb s "actor_instance"); cbn [StringSwitch.Result StringSwitch.Str];
    [reflexivity|].
  destruct (String.eqb s "nonisolated"); cbn [StringSwitch.Result StringSwitch.Str];
    [reflexivity|].
  destruct (String.eqb s "nonisolated_unsafe"); cbn [StringSwitch.Result StringSwitch.Str];
    [reflexivity|].
  destruct (String.eqb s "global_actor"); cbn [StringSwitch.Result StringSwitch.Str];
    [reflexivity|].
  destruct (String.eqb s "global_actor_unsafe"); reflexivity.
Qed.

Lemma forSILString_Some_inv (s : string) (v : ActorIsolation) :
  forSILString s = Some v ->
  exists k, v = ActorIsolation_Kind k true.
Proof.
  rewrite forSILString_unfold.
  repeat match goal with
         | |- context [if ?b then _ else _] => destruct b
         end;
    intros H; inversion H; eexists; reflexivity.
Qed.



(** ** Payload access *)

(** C3: on every [GlobalActor] value whose [isSILParsed] flag is set,
    [getGlobalActor] passes its assertion and returns the null [Type()],
    whatever the union holds. *)
Theorem C3_getGlobalActor_degraded
    (getOpaqueValue : PointerUnion -> void_ptr) (v : ActorIsolation) :
  getKind v = GlobalActor ->
  isSILParsed v = true ->
  getGlobalActor getOpaqueValue v = Some Type_null.
Proof.
  intros Hk Hs. unfold getGlobalActor, isGlobalActor.
  rewrite Hk. unfold isSILParsed in Hs. rewrite Hs. reflexivity.
Qed.

Lemma C3_getGlobalActor_degraded_witness :
  forSILString "global_actor" = Some (ActorIsolation_Kind GlobalActor true)
  /\ getKind (ActorIsolation_Kind GlobalActor true) = GlobalActor
  /\ isSILParsed (ActorIsolation_Kind GlobalActor true) = true
  /\ getGlobalActor (fun _ => nullptr) (ActorIsolation_Kind GlobalActor true)
     = Some Type_null.
Proof.
  repeat (split; [reflexivity|]).
  - apply (C3_getGlobalActor_degraded (fun _ => nullptr)
             (ActorIsolation_Kind GlobalActor true)); reflexivity.
Defined.

(** ** Kind predicates *)

(** C4: [isActorIsolated] holds exactly on [ActorInstance] and [GlobalActor],
    [isNonisolated] exactly on [Nonisolated] and [NonisolatedUnsafe]. *)
Theorem C4_kind_predicates (v : ActorIsolation) :
  (isActorIsolated v = true <->
     getKind v = ActorInstance \/ getKind v = GlobalActor)
  /\ (isNonisolated v = true <->
        getKind v = Nonisolated \/ getKind v = NonisolatedUnsafe).
Proof.
  unfold isActorIsolated, isNonisolated, getKind.
  destruct (kind v); simpl; split; split; intros H;
    try discriminate H; try reflexivity; try tauto;
    destruct H as [H | H]; discriminate H.
Qed.

(** ** Crossings *)

(** C6: a crossing exits isolation exactly when its callee is not actor
    isolated, and the isolation to diagnose is the callee's unless the
    crossing exits, in which case it is the caller's. *)
Theorem C6_crossing (caller callee : ActorIsolation) :
  let c := mkApplyIsolationCrossing caller callee in
  (exitsIsolation c = true <-> isActorIsolated callee = false)
  /\ (exitsIsolation c = true -> getDiagnoseIsolation c = caller)
  /\ (exitsIsolation c = false -> getDiagnoseIsolation c = callee).
Proof.
  cbv zeta. unfold getDiagnoseIsolation, exitsIsolation. simpl.
  destruct (isActorIsolated callee); simpl; repeat split;
    intros H; try reflexivity; discriminate H.
Qed.

Lemma C6_crossing_witness :
  exitsIsolation
    (mkApplyIsolationCrossing (forActorInstanceCapture 4096%N) forUnspecified)
  = true
  /\ getDiagnoseIsolation
       (mkApplyIsolationCrossing (forActorInstanceCapture 4096%N) forUnspecified)
     = forActorInstanceCapture 4096%N
  /\ exitsIsolation
       (mkApplyIsolationCrossing forUnspecified (forGlobalActor (mkType 4096%N)))
     = false
  /\ getDiagnoseIsolation
       (mkApplyIsolationCrossing forUnspecified (forGlobalActor (mkType 4096%N)))
     = forGlobalActor (mkType 4096%N).
Proof.
  destruct (C6_crossing (forActorInstanceCapture 4096%N) forUnspecified)
    as (_ & Hexit & _).
  destruct (C6_crossing forUnspecified (forGlobalActor (mkType 4096%N)))
    as (_ & _ & Hstay).
  split; [reflexivity|].
  split; [apply Hexit; reflexivity|].
  split; [reflexivity|].
  apply Hstay; reflexivity.
Defined.

(** The crossings the spec tabulates, for actors at addresses [a] and [b]
    and a global actor type [g]. *)
Lemma crossing_table (a b : void_ptr) (g : Type_) :
  let A := forActorInstanceCapture a in
  let B := forActorInstanceCapture b in
  let G := forGlobalActor g in
  (exitsIsolation (mkApplyIsolationCrossing A B) = false
   /\ getDiagnoseIsolation (mkApplyIsolationCrossing A B) = B)
  /\ (exitsIsolation (mkApplyIsolationCrossing A forUnspecified) = true
      /\ getDiagnoseIsolation (mkApplyIsolationCrossing A forUnspecified) = A)
  /\ (exitsIsolation (mkApplyIsolationCrossing forUnspecified G) = false
      /\ getDiagnoseIsolation (mkApplyIsolationCrossing forUnspecified G) = G)
  /\ (exitsIsolation
        (mkApplyIsolationCrossing forUnspecified (forNonisolated false)) = true
      /\ getDiagnoseIsolation
           (mkApplyIsolationCrossing forUnspecified (forNonisolated false))
         = forUnspecified).
Proof. cbv zeta. repeat split. Qed.

(** ** Printing *)

Lemma append_inj_l (p a b : string) : (p ++ a = p ++ b)%string -> a = b.
Proof.
  induction p as [|c p IH]; simpl; intros H.
  - exact H.
  - apply IH. inversion H. reflexivity.
Qed.

(** C7: [print] appends the keyword of the value's kind, one of the five
    fixed keywords; the union, the flags and the parameter index have no
    influence, and "global_actor_unsafe" is never written. *)
Theorem C7_print_keyword :
  (forall v os,
     print v os
     = (os ++ nth (Z.to_nat (Kind_value (getKind v))) printed_keywords "")%string
     /\ In (nth (Z.to_nat (Kind_value (getKind v))) printed_keywords "")
           printed_keywords)
  /\ (forall v w os, getKind v = getKind w -> print v os = print w os)
  /\ (forall v os, print v os <> (os ++ "global_actor_unsafe")%string).
Proof.
  split; [|split].
  - intros v os. unfold print. destruct (getKind v); simpl; tauto.
  - intros v w os H. unfold print. rewrite H. reflexivity.
  - intros v os H. unfold print in H.
    destruct (getKind v); apply append_inj_l in H; discriminate H.
Qed.

Lemma C7_print_keyword_witness :
  getKind (forGlobalActor (mkType 4096%N))
  = getKind (withPreconcurrency (ActorIsolation_Kind GlobalActor true) true)
  /\ print (forGlobalActor (mkType 4096%N)) ""
     = print (withPreconcurrency (ActorIsolation_Kind GlobalActor true) true) "".
Proof.
  destruct C7_print_keyword as (_ & Hkind & _).
  split; [reflexivity|].
  apply Hkind. reflexivity.
Defined.

(** ** Actor-instance parameter encoding *)

Lemma wrap_27_32 (x : Z) : wrap 27 (wrap 32 x) = wrap 27 x.
Proof.
  unfold wrap. apply Z.mod_mod_divide. exists 32. reflexivity.
Qed.

(** What the 27-bit field holds after [forActorInstanceParameter]: the
    index plus one, modulo [2 ^ 27]. *)
Lemma forActorInstanceParameter_index (u : PointerUnion) (i : Z) :
  getActorInstanceParameter
    (ActorIsolation_actor ActorInstance u (unsigned_add i 1))
  = Some ((i + 1) mod 2 ^ 27).
Proof.
  unfold getActorInstanceParameter, unsigned_add. simpl.
  rewrite wrap_27_32. reflexivity.
Qed.

(** C5, within the range the 27-bit field can hold: for every index [i]
    with [0 <= i < 2 ^ 27 - 1] each
    overload of [forActorInstanceParameter] builds a value whose
    [getActorInstanceParameter] is [i + 1]; [forActorInstanceCapture] and
    [forActorInstanceSelf] build values whose [getActorInstanceParameter] is
    [0], the index reserved for the receiver. *)
Theorem C5_parameter_encoding (actor : void_ptr) (self : PointerUnion) (i : Z) :
  0 <= i < 2 ^ 27 - 1 ->
  getActorInstanceParameter (forActorInstanceParameter_NominalTypeDecl actor i)
  = Some (i + 1)
  /\ getActorInstanceParameter (forActorInstanceParameter_VarDecl actor i)
     = Some (i + 1)
  /\ getActorInstanceParameter (forActorInstanceParameter_Expr actor i)
     = Some (i + 1)
  /\ getActorInstanceParameter (forActorInstanceCapture actor) = Some 0
  /\ getActorInstanceParameter (forActorInstanceSelf self) = Some 0.
Proof.
  intros Hi.
  unfold forActorInstanceParameter_NominalTypeDecl,
    forActorInstanceParameter_VarDecl, forActorInstanceParameter_Expr.
  rewrite !forActorInstanceParameter_index.
  rewrite Z.mod_small by lia.
  repeat split.
Qed.

Lemma C5_parameter_encoding_witness :
  0 <= 5 < 2 ^ 27 - 1
  /\ getActorInstanceParameter (forActorInstanceParameter_NominalTypeDecl 4096%N 5)
  = Some 6
  /\ getActorInstanceParameter (forActorInstanceParameter_VarDecl 4096%N 5)
     = Some 6
  /\ getActorInstanceParameter (forActorInstanceParameter_Expr 4096%N 5)
     = Some 6
  /\ getActorInstanceParameter (forActorInstanceCapture 4096%N) = Some 0
  /\ getActorInstanceParameter (forActorInstanceSelf (PU_VarDecl 4096%N))
     = Some 0.
Proof.
  split; [lia|].
  apply (C5_parameter_encoding 4096%N (PU_VarDecl 4096%N) 5). lia.
Defined.

(** The index [2 ^ 27 - 1] is an [unsigned], and the value built from it
    reads back as [0], the receiver's index, not as [2 ^ 27]. *)
Lemma C5_parameter_encoding_counterexample :
  is_unsigned 134217727
  /\ getActorInstanceParameter
       (forActorInstanceParameter_NominalTypeDecl 4096%N 134217727)
     = Some 0
  /\ getActorInstanceParameter
       (forActorInstanceParameter_NominalTypeDecl 4096%N 134217727)
     <> Some (134217727 + 1).
Proof.
  split; [unfold is_unsigned; lia|].
  split; [vm_compute; reflexivity|].
  vm_compute. intros H. discriminate H.
Qed.

(** ** Equality and the preconcurrency flag *)

Section Equality.

Variable getOpaqueValue : PointerUnion -> void_ptr.
Variable getCanonicalType : Type_ -> Type_.

Lemma areTypesEqual_refl (t : Type_) :
  areTypesEqual getCanonicalType t t = true.
Proof. unfold areTypesEqual, Type_eqb. apply N.eqb_refl. Qed.

(** Equality looks at the kind and the union only. *)
Lemma isEqual_same_payload (a b : ActorIsolation) :
  kind a = kind b -> storage a = storage b ->
  isEqual getOpaqueValue getCanonicalType a b = true.
Proof.
  intros Hk Hs. unfold isEqual, getKind. rewrite Hk, Hs, Kind_eqb_refl.
  destruct (kind b); simpl;
    first [reflexivity | apply N.eqb_refl | apply areTypesEqual_refl].
Qed.

Lemma isEqual_refl (a : ActorIsolation) :
  isEqual getOpaqueValue getCanonicalType a a = true.
Proof. apply isEqual_same_payload; reflexivity. Qed.

Lemma isEqual_kind (a b : ActorIsolation) :
  isEqual getOpaqueValue getCanonicalType a b = true -> getKind a = getKind b.
Proof.
  unfold isEqual. intros H. apply andb_prop in H. destruct H as [H _].
  apply Kind_eqb_eq. exact H.
Qed.

End Equality.

(** C8: [withPreconcurrency b] copies the kind, the union, the parameter
    index and the [silParsed] flag and sets the preconcurrency flag to [b];
    so setting the flag and clearing it again gives a value equal to the
    original under [isEqual]. *)
Theorem C8_withPreconcurrency_frame
    (getOpaqueValue : PointerUnion -> void_ptr)
    (getCanonicalType : Type_ -> Type_)
    (v : ActorIsolation) (b : bool) :
  getKind (withPreconcurrency v b) = getKind v
  /\ storage (withPreconcurrency v b) = storage v
  /\ parameterIndex (withPreconcurrency v b) = parameterIndex v
  /\ isSILParsed (withPreconcurrency v b) = isSILParsed v
  /\ preconcurrency (withPreconcurrency v b) = b
  /\ isEqual getOpaqueValue getCanonicalType
       (withPreconcurrency (withPreconcurrency v true) false) v = true.
Proof.
  repeat (split; [reflexivity|]).
  apply isEqual_same_payload; reflexivity.
Qed.

(** ** Substitution *)

(** C9: [subst] returns a value of kind [Unspecified], [Nonisolated] or
    [NonisolatedUnsafe] unchanged, hence equal to the original under
    [isEqual]; on a [GlobalActor] value whose payload is [T], under a
    substitution that sends [T] to [U], it returns a [GlobalActor] value
    whose payload is [U]. *)
Theorem C9_subst
    (getOpaqueValue : PointerUnion -> void_ptr)
    (getCanonicalType : Type_ -> Type_)
    (SubstitutionMap : Type)
    (Type_subst : Type_ -> SubstitutionMap -> Type_) :
  (forall v s,
     getKind v = Unspecified \/ getKind v = Nonisolated
     \/ getKind v = NonisolatedUnsafe ->
     subst getOpaqueValue Type_subst v s = v
     /\ isEqual getOpaqueValue getCanonicalType
          (subst getOpaqueValue Type_subst v s) v = true)
  /\ (forall v s T U,
        getKind v = GlobalActor ->
        getGlobalActor getOpaqueValue v = Some T ->
        Type_subst T s = U ->
        getKind (subst getOpaqueValue Type_subst v s) = GlobalActor
        /\ getGlobalActor getOpaqueValue (subst getOpaqueValue Type_subst v s)
           = Some U).
Proof.
  split.
  - intros v s Hk.
    assert (E : subst getOpaqueValue Type_subst v s = v).
    { unfold subst. destruct Hk as [H | [H | H]]; rewrite H; reflexivity. }
    rewrite E. split; [reflexivity | apply isEqual_refl].
  - intros v s T U Hk HT HU. unfold subst. rewrite Hk, HT, HU.
    split; [reflexivity|]. destruct U as [p]. reflexivity.
Qed.

Lemma C9_subst_witness :
  let getOpaqueValue := fun _ : PointerUnion => nullptr in
  let getCanonicalType := fun t : Type_ => t in
  let Type_subst :=
    fun (t : Type_) (s : void_ptr -> void_ptr) => mkType (s (getPointer t)) in
  let s := fun p : void_ptr => if N.eqb p 4096 then 8192%N else p in
  (getKind (forNonisolated true) = NonisolatedUnsafe
   /\ subst getOpaqueValue Type_subst (forNonisolated true) s
      = forNonisolated true)
  /\ (getKind (forGlobalActor (mkType 4096%N)) = GlobalActor
      /\ getGlobalActor getOpaqueValue (forGlobalActor (mkType 4096%N))
         = Some (mkType 4096%N)
      /\ Type_subst (mkType 4096%N) s = mkType 8192%N
      /\ getGlobalActor getOpaqueValue
           (subst getOpaqueValue Type_subst (forGlobalActor (mkType 4096%N)) s)
         = Some (mkType 8192%N)).
Proof.
  intros getOpaqueValue getCanonicalType Type_subst s.
  destruct (C9_subst getOpaqueValue getCanonicalType
              (void_ptr -> void_ptr) Type_subst) as [Hid Hglobal].
  split.
  - split; [reflexivity|].
    apply (Hid (forNonisolated true) s). right. right. reflexivity.
  - repeat (split; [reflexivity|]).
    apply (Hglobal (forGlobalActor (mkType 4096%N)) s
                   (mkType 4096%N) (mkType 8192%N)); reflexivity.
Defined.

(** ** What the factories leave in the flags *)

Lemma forSILString_fields (s : string) (v : ActorIsolation) :
  forSILString s = Some v ->
  storage v = pointer nullptr /\ parameterIndex v = 0
  /\ isSILParsed v = true /\ preconcurrency v = false.
Proof.
  intros H. destruct (forSILString_Some_inv s v H) as [k ->].
  repeat split.
Qed.





(** Whatever way a value was obtained, its parameter index fits the 27-bit
    field; no value reads back as index [2 ^ 27]. *)
Lemma Produced_parameterIndex_range (v : ActorIsolation) :
  Produced v -> 0 <= parameterIndex v < 2 ^ 27.
Proof.
  induction 1 as [k b | | unsafe | actor i | actor i | actor i | c | g
                 | s v Hs | v b Hv IH];
    try (apply wrap_range; lia); try exact IH.
  destruct (forSILString_fields s v Hs) as (_ & -> & _). lia.
Qed.

(** ** Hashing against equality *)

(** C1: hashing is to refine equality, but [forUnspecified()] and its copy
    with the preconcurrency flag set are equal under [operator==], while
    [hash_value] hands [hash_combine] the flag: the two hashes agree only if
    [hash_combine] maps the argument lists [(0, nullptr, 0, 0)] and
    [(0, nullptr, 1, 0)] to the same code. *)
Theorem C1_hash_value_reads_preconcurrency
    (getOpaqueValue : PointerUnion -> void_ptr)
    (hash_combine : Z -> void_ptr -> Z -> Z -> hash_code)
    (getCanonicalType : Type_ -> Type_) :
  operator_eq getOpaqueValue getCanonicalType
    forUnspecified (withPreconcurrency forUnspecified true) = true
  /\ hash_value getOpaqueValue hash_combine forUnspecified
     = hash_combine 0 nullptr 0 0
  /\ hash_value getOpaqueValue hash_combine
       (withPreconcurrency forUnspecified true)
     = hash_combine 0 nullptr 1 0.
Proof. repeat split. Qed.

(** With a combiner that tells its third argument apart, equal values get
    different hashes. *)
Lemma hash_value_separates_equal_values
    (getOpaqueValue : PointerUnion -> void_ptr)
    (getCanonicalType : Type_ -> Type_) :
  exists (hash_combine : Z -> void_ptr -> Z -> Z -> hash_code) a b,
    isEqual getOpaqueValue getCanonicalType a b = true
    /\ hash_value getOpaqueValue hash_combine a
       <> hash_value getOpaqueValue hash_combine b.
Proof.
  exists (fun _ _ flag _ => flag), forUnspecified,
    (withPreconcurrency forUnspecified true).
  split; [reflexivity|]. vm_compute. intros H. discriminate H.
Qed.

(** Values that agree on the kind, the word in the union, the flag and the
    index do hash equally: these four are all that [hash_value] reads. *)
Lemma hash_value_reads_four_fields
    (getOpaqueValue : PointerUnion -> void_ptr)
    (hash_combine : Z -> void_ptr -> Z -> Z -> hash_code)
    (a b : ActorIsolation) :
  kind a = kind b ->
  read_pointer getOpaqueValue (storage a)
  = read_pointer getOpaqueValue (storage b) ->
  isolatedByPreconcurrency a = isolatedByPreconcurrency b ->
  parameterIndex a = parameterIndex b ->
  hash_value getOpaqueValue hash_combine a
  = hash_value getOpaqueValue hash_combine b.
Proof.
  intros Hk Hp Hf Hi. unfold hash_value. rewrite Hk, Hp, Hf, Hi. reflexivity.
Qed.

(** * Further properties of the header *)

(** ** Text round trips *)

(** X1: what [print] writes for a value decodes, with [forSILString], to the
    value of the same kind that the decoder builds: the kind survives the
    trip through text, the payload and the preconcurrency flag do not. *)
Theorem print_then_forSILString (v : ActorIsolation) :
  forSILString (print v "") = Some (ActorIsolation_Kind (getKind v) true).
Proof. unfold print. destruct (getKind v); reflexivity. Qed.

(** X2: printing a decoded value gives back the string that was decoded,
    except that the legacy alias "global_actor_unsafe" comes back as
    "global_actor". *)
Theorem forSILString_then_print (s : string) (v : ActorIsolation) :
  forSILString s = Some v ->
  print v "" = if String.eqb s "global_actor_unsafe" then "global_actor" else s.
Proof.
  rewrite forSILString_unfold.
  repeat match goal with
         | |- context [if String.eqb s ?k then Some _ else _] =>
             let E := fresh "E" in
             destruct (String.eqb s k) eqn:E;
             [apply String.eqb_eq in E; subst s; intros H; inversion H;
              reflexivity|]
         end.
  intros H. discriminate H.
Qed.

Lemma forSILString_then_print_witness :
  forSILString "global_actor_unsafe" = Some (ActorIsolation_Kind GlobalActor true)
  /\ print (ActorIsolation_Kind GlobalActor true) "" = "global_actor"
  /\ forSILString "nonisolated_unsafe"
     = Some (ActorIsolation_Kind NonisolatedUnsafe true)
  /\ print (ActorIsolation_Kind NonisolatedUnsafe true) "" = "nonisolated_unsafe".
Proof.
  split; [reflexivity|].
  split.
  - apply (forSILString_then_print "global_actor_unsafe"
             (ActorIsolation_Kind GlobalActor true)). reflexivity.
  - split; [reflexivity|].
    apply (forSILString_then_print "nonisolated_unsafe"
             (ActorIsolation_Kind NonisolatedUnsafe true)). reflexivity.
Defined.

(** X3: two values print alike on a stream exactly when they have the same
    kind: the five keywords are pairwise distinct. *)
Theorem print_eq_iff_kind (v w : ActorIsolation) (os : raw_ostream) :
  print v os = print w os <-> getKind v = getKind w.
Proof.
  split.
  - unfold print. destruct (getKind v), (getKind w); intros H;
      try reflexivity; apply append_inj_l in H; discriminate H.
  - intros H. unfold print. rewrite H. reflexivity.
Qed.

Lemma append_assoc_string (a b c : string) :
  ((a ++ b) ++ c = a ++ (b ++ c))%string.
Proof.
  induction a as [|x a IH]; simpl.
  - reflexivity.
  - rewrite IH. reflexivity.
Qed.

(** X4: [print] and [operator<<] only append: what was on the stream stays
    in front, the text added does not depend on it, and two values streamed
    in a row leave their two keywords in that order. *)
Theorem operator_shl_appends (os : raw_ostream) (a b : ActorIsolation) :
  print a os = (os ++ print a "")%string
  /\ operator_shl os a = (os ++ print a "")%string
  /\ operator_shl (operator_shl os a) b
     = (os ++ (print a "" ++ print b ""))%string.
Proof.
  assert (P : forall v o, print v o = (o ++ print v "")%string).
  { intros v o. unfold print. destruct (getKind v); reflexivity. }
  split; [apply P|]. split; [apply P|].
  unfold operator_shl. rewrite (P b), (P a). apply append_assoc_string.
Qed.

(** ** Kinds and their predicates *)

(** X5: the three kind predicates split the values three ways: every value
    satisfies exactly one of [isUnspecified], [isNonisolated] and
    [isActorIsolated]. *)
Theorem kind_predicates_partition (v : ActorIsolation) :
  (isUnspecified v = true /\ isNonisolated v = false
   /\ isActorIsolated v = false)
  \/ (isUnspecified v = false /\ isNonisolated v = true
      /\ isActorIsolated v = false)
  \/ (isUnspecified v = false /\ isNonisolated v = false
      /\ isActorIsolated v = true).
Proof.
  unfold isUnspecified, isNonisolated, isActorIsolated, getKind.
  destruct (kind v); simpl; tauto.
Qed.

(** X6: each factory builds a value of the kind it is named after;
    [forNonisolated] builds a nonisolated value for either argument, and the
    [NonisolatedUnsafe] one exactly when asked for the unsafe form. *)
Theorem factory_kinds :
  getKind forUnspecified = Unspecified
  /\ (forall unsafe,
        isNonisolated (forNonisolated unsafe) = true
        /\ (getKind (forNonisolated unsafe) = NonisolatedUnsafe
            <-> unsafe = true))
  /\ (forall actor i,
        getKind (forActorInstanceParameter_NominalTypeDecl actor i)
        = ActorInstance
        /\ getKind (forActorInstanceParameter_VarDecl actor i) = ActorInstance)
  /\ (forall capturedActor,
        getKind (forActorInstanceCapture capturedActor) = ActorInstance)
  /\ (forall globalActor_,
        getKind (forGlobalActor globalActor_) = GlobalActor
        /\ isGlobalActor (forGlobalActor globalActor_) = true).
Proof.
  split; [reflexivity|].
  split.
  - intros [|]; simpl; split; try reflexivity; split; intros H;
      try reflexivity; discriminate H.
  - repeat split.
Qed.

(** ** The preconcurrency flag *)

(** X7: of two [withPreconcurrency] copies in a row the last one decides
    the flag, and copying with the flag the value already has gives the
    value back. *)
Theorem withPreconcurrency_compose (v : ActorIsolation) (a b : bool) :
  withPreconcurrency (withPreconcurrency v a) b = withPreconcurrency v b
  /\ withPreconcurrency v (preconcurrency v) = v.
Proof.
  split.
  - reflexivity.
  - destruct v as [st k p sp i]. reflexivity.
Qed.

(** ** Payload accessors *)

Lemma getActorInstanceParameter_defined (v : ActorIsolation) :
  getActorInstanceParameter v <> None <-> getKind v = ActorInstance.
Proof.
  unfold getActorInstanceParameter, assert.
  destruct (Kind_eqb (getKind v) ActorInstance) eqn:E.
  - apply Kind_eqb_eq in E. split; [intros _; exact E | intros _ H; discriminate H].
  - split.
    + intros H. exfalso. apply H. reflexivity.
    + intros H. apply Kind_eqb_eq in H. rewrite H in E. discriminate E.
Qed.

Lemma getGlobalActor_defined
    (getOpaqueValue : PointerUnion -> void_ptr) (v : ActorIsolation) :
  getGlobalActor getOpaqueValue v <> None <-> getKind v = GlobalActor.
Proof.
  unfold getGlobalActor, isGlobalActor, assert.
  destruct (Kind_eqb (getKind v) GlobalActor) eqn:E.
  - apply Kind_eqb_eq in E. split; [intros _; exact E|].
    intros _. destruct (silParsed v); intros H; discriminate H.
  - split.
    + intros H. exfalso. apply H. reflexivity.
    + intros H. apply Kind_eqb_eq in H. rewrite H in E. discriminate E.
Qed.

(** X8: [getActorInstanceParameter] passes its assertion exactly on
    [ActorInstance] values and [getGlobalActor] exactly on [GlobalActor]
    values; so one of the two accessors answers exactly when the value is
    actor isolated, and never both. *)
Theorem accessors_defined
    (getOpaqueValue : PointerUnion -> void_ptr) (v : ActorIsolation) :
  (getActorInstanceParameter v <> None <-> getKind v = ActorInstance)
  /\ (getGlobalActor getOpaqueValue v <> None <-> getKind v = GlobalActor)
  /\ (getActorInstanceParameter v <> None
      \/ getGlobalActor getOpaqueValue v <> None
      <-> isActorIsolated v = true)
  /\ ~ (getActorInstanceParameter v <> None
        /\ getGlobalActor getOpaqueValue v <> None).
Proof.
  rewrite getActorInstanceParameter_defined.
  rewrite (getGlobalActor_defined getOpaqueValue).
  unfold isActorIsolated.
  destruct (getKind v); repeat split;
    try tauto; try (intros [H | H]; discriminate H);
    try (intros H; discriminate H);
    try (intros [H1 H2]; first [discriminate H1 | discriminate H2]).
Qed.

(** X9: a type handed to [forGlobalActor] is the type [getGlobalActor]
    hands back, also after the preconcurrency flag was set or cleared. *)
Theorem forGlobalActor_getGlobalActor
    (getOpaqueValue : PointerUnion -> void_ptr) (t : Type_) (b : bool) :
  getGlobalActor getOpaqueValue (forGlobalActor t) = Some t
  /\ getGlobalActor getOpaqueValue (withPreconcurrency (forGlobalActor t) b)
     = Some t.
Proof. destruct t as [p]. split; reflexivity. Qed.

(** X10: the public constructor without the SIL flag and the private
    constructor given the null type build values no member function of the
    header tells apart: same kind, flags and index, same answers from both
    payload accessors, same hash, same printed text. *)
Theorem constructors_with_null_agree
    (getOpaqueValue : PointerUnion -> void_ptr)
    (hash_combine : Z -> void_ptr -> Z -> Z -> hash_code)
    (k : Kind) (os : raw_ostream) :
  let a := ActorIsolation_Kind k false in
  let b := ActorIsolation_Type k (mkType nullptr) in
  getKind a = getKind b
  /\ preconcurrency a = preconcurrency b
  /\ isSILParsed a = isSILParsed b
  /\ getActorInstanceParameter a = getActorInstanceParameter b
  /\ getGlobalActor getOpaqueValue a = getGlobalActor getOpaqueValue b
  /\ hash_value getOpaqueValue hash_combine a
     = hash_value getOpaqueValue hash_combine b
  /\ print a os = print b os.
Proof. cbv zeta. destruct k; repeat split. Qed.

(** ** Crossings, continued *)

(** X11: the isolation picked for diagnostics is actor isolated exactly when
    the callee or the caller is. *)
Theorem getDiagnoseIsolation_isActorIsolated (c : ApplyIsolationCrossing) :
  isActorIsolated (getDiagnoseIsolation c)
  = isActorIsolated (getCalleeIsolation c)
    || isActorIsolated (getCallerIsolation c).
Proof.
  unfold getDiagnoseIsolation, exitsIsolation, getCalleeIsolation,
    getCallerIsolation.
  destruct (isActorIsolated (CalleeIsolation c)) eqn:E; simpl.
  - exact E.
  - reflexivity.
Qed.

(** X12: a crossing exits isolation exactly when its callee is unspecified
    or nonisolated, whatever the caller is. *)
Theorem exitsIsolation_by_callee (c : ApplyIsolationCrossing) :
  exitsIsolation c
  = isUnspecified (getCalleeIsolation c) || isNonisolated (getCalleeIsolation c).
Proof.
  unfold exitsIsolation, isActorIsolated, isUnspecified, isNonisolated,
    getCalleeIsolation, getKind.
  destruct (kind (CalleeIsolation c)); reflexivity.
Qed.

(** ** Invariants of the values the class hands out *)

(** X13: whichever way a value was obtained, the parameter index it reports
    fits the 27-bit field: it is never [2 ^ 27] or more. *)
Theorem Produced_getActorInstanceParameter_range (v : ActorIsolation) (i : Z) :
  Produced v ->
  getActorInstanceParameter v = Some i ->
  0 <= i < 2 ^ 27.
Proof.
  intros HP H. unfold getActorInstanceParameter, assert in H.
  destruct (Kind_eqb (getKind v) ActorInstance); [|discriminate H].
  inversion H. subst i. apply Produced_parameterIndex_range. exact HP.
Qed.

Lemma Produced_getActorInstanceParameter_range_witness :
  Produced (forActorInstanceParameter_VarDecl 4096%N 4294967295)
  /\ getActorInstanceParameter
       (forActorInstanceParameter_VarDecl 4096%N 4294967295) = Some 0
  /\ 0 <= 0 < 2 ^ 27.
Proof.
  assert (HP : Produced (forActorInstanceParameter_VarDecl 4096%N 4294967295))
    by apply P_forActorInstanceParameter_VarDecl.
  assert (HG : getActorInstanceParameter
                 (forActorInstanceParameter_VarDecl 4096%N 4294967295) = Some 0)
    by (vm_compute; reflexivity).
  split; [exact HP|]. split; [exact HG|].
  exact (Produced_getActorInstanceParameter_range _ 0 HP HG).
Defined.

(** X14: a value of a kind other than [ActorInstance] has parameter index
    [0], and a value of kind [Unspecified], [Nonisolated] or
    [NonisolatedUnsafe] has the null pointer in its union, whichever way it
    was obtained. *)
Theorem Produced_payload_free
    (getOpaqueValue : PointerUnion -> void_ptr) (v : ActorIsolation) :
  Produced v ->
  (getKind v <> ActorInstance -> parameterIndex v = 0)
  /\ (isActorIsolated v = false ->
      read_pointer getOpaqueValue (storage v) = nullptr).
Proof.
  induction 1 as [k b | | unsafe | actor i | actor i | actor i | c | g
                 | s v Hs | v b Hv IH].
  - split; reflexivity.
  - split; reflexivity.
  - split; reflexivity.
  - split; [intros H; exfalso; apply H; reflexivity | intros H; discriminate H].
  - split; [intros H; exfalso; apply H; reflexivity | intros H; discriminate H].
  - split; [intros H; exfalso; apply H; reflexivity | intros H; discriminate H].
  - split; [intros H; exfalso; apply H; reflexivity | intros H; discriminate H].
  - split; [reflexivity | intros H; discriminate H].
  - destruct (forSILString_fields s v Hs) as (-> & -> & _).
    split; reflexivity.
  - exact IH.
Qed.

Lemma Produced_payload_free_witness :
  let v := withPreconcurrency (forNonisolated true) true in
  Produced v
  /\ getKind v <> ActorInstance
  /\ isActorIsolated v = false
  /\ parameterIndex v = 0
  /\ read_pointer (fun _ => 4096%N) (storage v) = nullptr.
Proof.
  intros v.
  assert (HP : Produced v) by apply P_withPreconcurrency, P_forNonisolated.
  assert (HK : getKind v <> ActorInstance) by (intros H; discriminate H).
  destruct (Produced_payload_free (fun _ => 4096%N) v HP) as [Hidx Hptr].
  split; [exact HP|]. split; [exact HK|]. split; [reflexivity|].
  split; [exact (Hidx HK) | apply Hptr; reflexivity].
Defined.

(** Only [ActorInstance] values have the union's [actorInstance] member
    initialised. *)
Lemma Produced_actorInstance_kind (v : ActorIsolation) (a : PointerUnion) :
  Produced v -> storage v = actorInstance a -> getKind v = ActorInstance.
Proof.
  induction 1 as [k b | | unsafe | actor i | actor i | actor i | c | g
                 | s v Hs | v b Hv IH]; intros H;
    try discriminate H; try reflexivity.
  - destruct (forSILString_fields s v Hs) as (E & _).
    rewrite E in H. discriminate H.
  - apply IH. exact H.
Qed.

(** X15: on a [GlobalActor] value, whichever way it was obtained,
    [getGlobalActor] never reads the union through a member other than the
    [Type] or raw pointer that was stored: its answer does not depend on how
    a [PointerUnion] is laid out. *)
Theorem Produced_getGlobalActor_no_punning
    (enc1 enc2 : PointerUnion -> void_ptr) (v : ActorIsolation) :
  Produced v ->
  getKind v = GlobalActor ->
  getGlobalActor enc1 v = getGlobalActor enc2 v.
Proof.
  intros HP HK. unfold getGlobalActor, read_globalActor.
  destruct (storage v) as [a | t | p] eqn:E; try reflexivity.
  pose proof (Produced_actorInstance_kind v a HP E) as HA.
  rewrite HK in HA. discriminate HA.
Qed.

Lemma Produced_getGlobalActor_no_punning_witness :
  Produced (forGlobalActor (mkType 4096%N))
  /\ getKind (forGlobalActor (mkType 4096%N)) = GlobalActor
  /\ getGlobalActor (fun _ => nullptr) (forGlobalActor (mkType 4096%N))
     = getGlobalActor (fun _ => 8192%N) (forGlobalActor (mkType 4096%N)).
Proof.
  assert (HP : Produced (forGlobalActor (mkType 4096%N)))
    by apply P_forGlobalActor.
  split; [exact HP|]. split; [reflexivity|].
  apply (Produced_getGlobalActor_no_punning _ _ _ HP). reflexivity.
Defined.

(** ** The parameter index at the edge of the field *)

(** X16: for every index [i] the inline overloads of
    [forActorInstanceParameter] build a value that reports
    [(i + 1) mod 2 ^ 27]; the report is [0], the receiver's index, exactly
    when [2 ^ 27] divides [i + 1]. *)
Theorem forActorInstanceParameter_wraps (actor : void_ptr) (i : Z) :
  getActorInstanceParameter (forActorInstanceParameter_NominalTypeDecl actor i)
  = Some ((i + 1) mod 2 ^ 27)
  /\ getActorInstanceParameter (forActorInstanceParameter_VarDecl actor i)
     = Some ((i + 1) mod 2 ^ 27)
  /\ (getActorInstanceParameter (forActorInstanceParameter_VarDecl actor i)
      = getActorInstanceParameter (forActorInstanceCapture actor)
      <-> (2 ^ 27 | i + 1)).
Proof.
  unfold forActorInstanceParameter_NominalTypeDecl,
    forActorInstanceParameter_VarDecl.
  rewrite !forActorInstanceParameter_index.
  split; [reflexivity|]. split; [reflexivity|].
  change (getActorInstanceParameter (forActorInstanceCapture actor))
    with (Some 0).
  rewrite <- Z.mod_divide by lia.
  split; intros H.
  - inversion H. reflexivity.
  - rewrite H. reflexivity.
Qed.

(** ** Hashing and the SIL flag *)

(** X17: [hash_value] does not read the [silParsed] flag: a value
    [forSILString] returns hashes like the value the public constructor
    builds for the same kind without the flag, and like the value of
    [forUnspecified] or [forNonisolated] when it is of such a kind. *)
Theorem hash_value_ignores_silParsed
    (getOpaqueValue : PointerUnion -> void_ptr)
    (hash_combine : Z -> void_ptr -> Z -> Z -> hash_code)
    (s : string) (v : ActorIsolation) :
  forSILString s = Some v ->
  hash_value getOpaqueValue hash_combine v
  = hash_value getOpaqueValue hash_combine (ActorIsolation_Kind (getKind v) false)
  /\ (getKind v = Unspecified ->
      hash_value getOpaqueValue hash_combine v
      = hash_value getOpaqueValue hash_combine forUnspecified)
  /\ (forall unsafe,
        getKind v = getKind (forNonisolated unsafe) ->
        hash_value getOpaqueValue hash_combine v
        = hash_value getOpaqueValue hash_combine (forNonisolated unsafe)).
Proof.
  intros H. destruct (forSILString_Some_inv s v H) as [k ->].
  split; [reflexivity|]. split.
  - simpl. intros ->. reflexivity.
  - intros unsafe. simpl. intros ->. reflexivity.
Qed.

Lemma hash_value_ignores_silParsed_witness :
  forSILString "unspecified" = Some (ActorIsolation_Kind Unspecified true)
  /\ hash_value (fun _ => nullptr) (fun k p f i => k + Z.of_N p + f + i)
       (ActorIsolation_Kind Unspecified true)
     = hash_value (fun _ => nullptr) (fun k p f i => k + Z.of_N p + f + i)
         forUnspecified.
Proof.
  split; [reflexivity|].
  destruct (hash_value_ignores_silParsed
              (fun _ => nullptr) (fun k p f i => k + Z.of_N p + f + i)
              "unspecified" (ActorIsolation_Kind Unspecified true) eq_refl)
    as (_ & Hu & _).
  apply Hu. reflexivity.
Defined.
